(** * conv.py: converting the Keras emotion model to a TensorFlow Lite file

    The script [app/src/main/assets/conv.py] is a straight-line Python
    module: it imports TensorFlow, loads [mobilenet_7.h5], builds a
    [TFLiteConverter] from the loaded model, converts it, writes the bytes to
    [fer_mobilenet.tflite] inside a [with open(..., 'wb')] block and prints
    one line.

    The embedding is a state-and-exception monad over a [World] that holds
    what the script can observe or change: the file system, the table of open
    file objects, the two console streams and a log of the effects that took
    place.  TensorFlow itself is not part of the repository; it enters as an
    interface ([TensorFlow]) whose operations are parameters. *)

From stdpp Require Import gmap strings list fin_maps.
From Stdlib.Strings Require Import Byte.

Abbreviation bytes := (list byte).

(** ** The Python runtime, as far as the script uses it *)

Module Py.

(** Exceptions the statements of the script can raise. *)
Inductive exn : Type :=
| ModuleNotFoundError (name : string)   (* [import] of a missing module *)
| SourceNotFound (path : string)        (* [load_model]: no file at the path *)
| SourceInvalid (path : string)         (* [load_model]: not a model file *)
| ConverterError                        (* [convert()]: model not convertible *)
| PermissionError (path : string)       (* [open]: path not writable *)
| NoSpaceError (path : string)          (* flushing to a full device *)
| ValueError (msg : string).            (* closed file, unsupported mode *)

Inductive result (A : Type) : Type :=
| Ok (a : A)
| Raise (e : exn).
Arguments Ok {A} a.
Arguments Raise {A} e.

(** A buffered binary writer, as returned by [open(path, 'wb')]: the path it
    writes to and the bytes accepted by [write] but not yet flushed. *)
Record ofile : Type := OFile { of_path : string; of_buf : bytes }.

(** Effects that took place, in order. *)
Inductive event : Type :=
| EvImport (name : string)
| EvLoad (path : string)
| EvConvert (out : bytes)
| EvOpen (path : string) (fd : nat)
| EvWrite (fd : nat) (data : bytes)
| EvClose (fd : nat)
| EvPrint (line : string).

Record World : Type := mkWorld {
  installed : gset string;        (* importable modules *)
  argv : list string;             (* command line *)
  environ : gmap string string;   (* environment variables *)
  fs : gmap string bytes;         (* regular files, by path *)
  wdenied : gset string;          (* paths [open] may not write or create *)
  disk_free : nat;                (* bytes the device still accepts *)
  buffer_size : nat;              (* io.DEFAULT_BUFFER_SIZE *)
  handles : gmap nat ofile;       (* open file objects, by descriptor *)
  stdout : list string;           (* lines written by [print] *)
  stderr : list string;           (* reports of the interpreter *)
  trace : list event
}.

Definition set_fs (f : gmap string bytes → gmap string bytes) (w : World) : World :=
  mkWorld (installed w) (argv w) (environ w) (f (fs w)) (wdenied w)
          (disk_free w) (buffer_size w) (handles w) (stdout w) (stderr w) (trace w).

Definition set_disk_free (n : nat) (w : World) : World :=
  mkWorld (installed w) (argv w) (environ w) (fs w) (wdenied w)
          n (buffer_size w) (handles w) (stdout w) (stderr w) (trace w).

Definition set_handles (f : gmap nat ofile → gmap nat ofile) (w : World) : World :=
  mkWorld (installed w) (argv w) (environ w) (fs w) (wdenied w)
          (disk_free w) (buffer_size w) (f (handles w)) (stdout w) (stderr w) (trace w).

Definition set_stdout (l : list string) (w : World) : World :=
  mkWorld (installed w) (argv w) (environ w) (fs w) (wdenied w)
          (disk_free w) (buffer_size w) (handles w) l (stderr w) (trace w).

Definition set_stderr (l : list string) (w : World) : World :=
  mkWorld (installed w) (argv w) (environ w) (fs w) (wdenied w)
          (disk_free w) (buffer_size w) (handles w) (stdout w) l (trace w).

Definition set_argv (a : list string) (w : World) : World :=
  mkWorld (installed w) a (environ w) (fs w) (wdenied w)
          (disk_free w) (buffer_size w) (handles w) (stdout w) (stderr w) (trace w).

Definition set_environ (e : gmap string string) (w : World) : World :=
  mkWorld (installed w) (argv w) e (fs w) (wdenied w)
          (disk_free w) (buffer_size w) (handles w) (stdout w) (stderr w) (trace w).

Definition log (e : event) (w : World) : World :=
  mkWorld (installed w) (argv w) (environ w) (fs w) (wdenied w)
          (disk_free w) (buffer_size w) (handles w) (stdout w) (stderr w)
          (trace w ++ [e]).

(** Statements: a world goes in, a value or a raised exception and the world
    as it then is come out.  An exception skips the rest of a sequence. *)
Definition M (A : Type) : Type := World → result A * World.

#[export] Instance M_ret : MRet M := λ A a w, (Ok a, w).

#[export] Instance M_bind : MBind M := λ A B k m w,
  match m w with
  | (Ok a, w1) => k a w1
  | (Raise e, w1) => (Raise e, w1)
  end.

(** [import name] *)
Definition import_ (name : string) : M unit := λ w,
  if decide (name ∈ installed w) then (Ok tt, log (EvImport name) w)
  else (Raise (ModuleNotFoundError name), w).

(** [open(path, mode)], for the mode the script uses.  ['wb'] creates the
    file or truncates it to length zero, and yields a buffered writer.  The
    room the old contents took is not added to [disk_free]: the device is
    taken to accept [disk_free] more bytes, whatever is truncated. *)
Definition open_ (path mode : string) : M nat := λ w,
  if decide (mode = "wb") then
    if decide (path ∈ wdenied w) then (Raise (PermissionError path), w)
    else
      let fd := fresh (dom (handles w)) in
      (Ok fd, log (EvOpen path fd)
                (set_handles <[fd := OFile path []]>
                   (set_fs <[path := []]> w)))
  else (Raise (ValueError "invalid mode"), w).

(** Appending bytes to the file at [path]. *)
Definition fs_append (path : string) (data : bytes)
    (m : gmap string bytes) : gmap string bytes :=
  <[path := default [] (m !! path) ++ data]> m.

(** [f.flush()]: hand the buffered bytes to the device.  The device takes
    what it has room for; what is left stays in the buffer and the call
    raises. *)
Definition flush (fd : nat) : M unit := λ w,
  match handles w !! fd with
  | None => (Raise (ValueError "I/O operation on closed file"), w)
  | Some h =>
      let n := length (of_buf h) `min` disk_free w in
      let w1 :=
        set_handles <[fd := OFile (of_path h) (drop n (of_buf h))]>
          (set_disk_free (disk_free w - n)
             (set_fs (fs_append (of_path h) (take n (of_buf h))) w)) in
      if decide (n < length (of_buf h))
      then (Raise (NoSpaceError (of_path h)), w1)
      else (Ok tt, w1)
  end.

(** [f.write(data)]: the bytes go to the buffer, which is flushed when it
    has grown beyond [buffer_size].  Returns the number of bytes taken. *)
Definition write (fd : nat) (data : bytes) : M nat := λ w,
  match handles w !! fd with
  | None => (Raise (ValueError "I/O operation on closed file"), w)
  | Some h =>
      let w1 := set_handles <[fd := OFile (of_path h) (of_buf h ++ data)]> w in
      if decide (buffer_size w < length (of_buf h ++ data)) then
        match flush fd w1 with
        | (Ok _, w2) => (Ok (length data), log (EvWrite fd data) w2)
        | (Raise e, w2) => (Raise e, w2)
        end
      else (Ok (length data), log (EvWrite fd data) w1)
  end.

(** [f.close()]: flush, then release the descriptor whether or not the
    flush raised; an exception of the flush is raised again afterwards.
    Closing a closed file does nothing. *)
Definition close (fd : nat) : M unit := λ w,
  match handles w !! fd with
  | None => (Ok tt, w)
  | Some _ =>
      match flush fd w with
      | (r, w1) => (r, log (EvClose fd) (set_handles (delete fd) w1))
      end
  end.

(** [with mgr as f: body], for a file object: [__enter__] yields the file,
    [__exit__] closes it and does not swallow the exception of the body.  An
    exception raised while opening leaves nothing to close. *)
Definition with_ {A : Type} (mgr : M nat) (body : nat → M A) : M A :=
  f ← mgr;
  (λ w, match body f w with
        | (Ok a, w1) => (close f ;; mret a) w1
        | (Raise e, w1) =>
            match close f w1 with
            | (Ok _, w2) => (Raise e, w2)
            | (Raise e', w2) => (Raise e', w2)
            end
        end) : M A.

(** [print(line)] *)
Definition print (line : string) : M unit := λ w,
  (Ok tt, log (EvPrint line) (set_stdout (stdout w ++ [line]) w)).

(** Name of the exception class, as the last line of a traceback shows it. *)
Definition exn_name (e : exn) : string :=
  match e with
  | ModuleNotFoundError _ => "ModuleNotFoundError"
  | SourceNotFound _ => "OSError"
  | SourceInvalid _ => "OSError"
  | ConverterError => "ConverterError"
  | PermissionError _ => "PermissionError"
  | NoSpaceError _ => "OSError"
  | ValueError _ => "ValueError"
  end.

(** The process boundary: running a module as [python module.py].  An
    exception nobody handled is reported on standard error and the exit
    status is 1; otherwise the status is 0. *)
Definition python (script : M unit) (w : World) : nat * World :=
  match script w with
  | (Ok _, w1) => (0, w1)
  | (Raise e, w1) => (1, set_stderr (stderr w1 ++ [exn_name e]) w1)
  end.

End Py.
Export Py.

(** ** TensorFlow, as an interface *)

(** What the script needs of the library: a type of in-memory models, the
    converter's settings with their defaults, the reader of the serialized
    model format and the conversion itself.  Both operations may fail. *)
Class TensorFlow : Type := {
  Model : Type;
  Settings : Type;
  default_settings : Settings;
  h5_parse : bytes → option Model;
  toco_convert : Settings → Model → option bytes
}.

Section Conv.
Context `{TF : TensorFlow}.

(** [tf.lite.TFLiteConverter]: the model and the attributes that steer the
    conversion. *)
Record TFLiteConverter : Type := mkConverter {
  conv_model : Model;
  conv_settings : Settings
}.

(** [tf.keras.models.load_model(path)].  What the library writes to the
    console while it works is not an effect on the world; see [Chatter]. *)
Definition load_model (path : string) : M Model := λ w,
  match fs w !! path with
  | None => (Raise (SourceNotFound path), w)
  | Some data =>
      match h5_parse data with
      | None => (Raise (SourceInvalid path), w)
      | Some m => (Ok m, log (EvLoad path) w)
      end
  end.

(** [tf.lite.TFLiteConverter.from_keras_model(model)] *)
Definition from_keras_model (model : Model) : TFLiteConverter :=
  mkConverter model default_settings.

(** [converter.convert()] *)
Definition convert (converter : TFLiteConverter) : M bytes := λ w,
  match toco_convert (conv_settings converter) (conv_model converter) with
  | None => (Raise ConverterError, w)
  | Some out => (Ok out, log (EvConvert out) w)
  end.

Definition src_path : string := "mobilenet_7.h5".
Definition dst_path : string := "fer_mobilenet.tflite".
Definition success_msg : string := "Model converted successfully!".

(** The module body of conv.py, statement by statement. *)
Definition conv_py : M unit :=
  import_ "tensorflow" ;;
  model ← load_model src_path;
  let converter := from_keras_model model in
  tflite_model ← convert converter;
  with_ (open_ dst_path "wb") (λ f, write f tflite_model) ;;
  print success_msg.

End Conv.

(** ** The worlds the script can end in *)

(** The bytes conversion yields for a source file with contents [d], under
    the settings a fresh converter has. *)
Definition converted `{TF : TensorFlow} (d : bytes) : option bytes :=
  m ← h5_parse d; toco_convert default_settings m.

(** After [import] and [load_model] went through. *)
Definition loaded (w : World) : World :=
  log (EvLoad src_path) (log (EvImport "tensorflow") w).

(** After the [with] statement that writes [b] to [path] was left: the
    device took [length b `min` disk_free w] bytes, the descriptor is
    released again.  [write] shows in the log unless it raised, which it does
    when it had to flush and the device was full. *)
Definition saved (path : string) (b : bytes) (w : World) : World :=
  let fd := fresh (dom (handles w)) in
  let n := length b `min` disk_free w in
  mkWorld (installed w) (argv w) (environ w)
          (<[path := take n b]> (fs w)) (wdenied w)
          (disk_free w - n) (buffer_size w) (handles w)
          (stdout w) (stderr w)
          (trace w ++ EvOpen path fd ::
             (if decide (disk_free w < length b ∧ buffer_size w < length b)
              then [] else [EvWrite fd b]) ++ [EvClose fd]).

(** After [print]. *)
Definition notified (line : string) (w : World) : World :=
  log (EvPrint line) (set_stdout (stdout w ++ [line]) w).

(** The same world, had the process been started with another command line
    and other environment variables. *)
Definition relaunch (a : list string) (env : gmap string string)
    (w : World) : World :=
  set_argv a (set_environ env w).

(** The runs of the script, one constructor per way it can end. *)
Inductive conv_run `{TF : TensorFlow} (w : World) : result unit → World → Prop :=
| run_no_module :
    "tensorflow" ∉ installed w →
    conv_run w (Raise (ModuleNotFoundError "tensorflow")) w
| run_no_source :
    "tensorflow" ∈ installed w →
    fs w !! src_path = None →
    conv_run w (Raise (SourceNotFound src_path)) (log (EvImport "tensorflow") w)
| run_bad_source d :
    "tensorflow" ∈ installed w →
    fs w !! src_path = Some d → h5_parse d = None →
    conv_run w (Raise (SourceInvalid src_path)) (log (EvImport "tensorflow") w)
| run_not_convertible d m :
    "tensorflow" ∈ installed w →
    fs w !! src_path = Some d → h5_parse d = Some m →
    toco_convert default_settings m = None →
    conv_run w (Raise ConverterError) (loaded w)
| run_denied d m b :
    "tensorflow" ∈ installed w →
    fs w !! src_path = Some d → h5_parse d = Some m →
    toco_convert default_settings m = Some b →
    dst_path ∈ wdenied w →
    conv_run w (Raise (PermissionError dst_path)) (log (EvConvert b) (loaded w))
| run_no_space d m b :
    "tensorflow" ∈ installed w →
    fs w !! src_path = Some d → h5_parse d = Some m →
    toco_convert default_settings m = Some b →
    dst_path ∉ wdenied w →
    disk_free w < length b →
    conv_run w (Raise (NoSpaceError dst_path))
             (saved dst_path b (log (EvConvert b) (loaded w)))
| run_done d m b :
    "tensorflow" ∈ installed w →
    fs w !! src_path = Some d → h5_parse d = Some m →
    toco_convert default_settings m = Some b →
    dst_path ∉ wdenied w →
    length b ≤ disk_free w →
    conv_run w (Ok tt)
             (notified success_msg (saved dst_path b (log (EvConvert b) (loaded w)))).

(** The four steps of the procedure, and the step an effect belongs to.
    Importing the library and opening and closing the file are not steps of
    their own. *)
Inductive step : Type := SLoad | SConvert | SWrite | SNotify.

Definition step_of (e : event) : option step :=
  match e with
  | EvLoad _ => Some SLoad
  | EvConvert _ => Some SConvert
  | EvWrite _ _ => Some SWrite
  | EvPrint _ => Some SNotify
  | EvImport _ | EvOpen _ _ | EvClose _ => None
  end.

Definition steps (evs : list event) : list step := omap step_of evs.

(** The data of the [write] calls, the paths of the [open] calls and the
    lines of the [print] calls among some effects. *)
Definition writes (evs : list event) : list bytes :=
  omap (λ e, match e with EvWrite _ data => Some data | _ => None end) evs.

Definition opens (evs : list event) : list string :=
  omap (λ e, match e with EvOpen path _ => Some path | _ => None end) evs.

Definition prints (evs : list event) : list string :=
  omap (λ e, match e with EvPrint line => Some line | _ => None end) evs.

(** What the library writes to the console on its own while it is
    imported, loads a model or converts one: log lines on standard error
    and, for some versions, a listing on standard output.  This output is
    the library's, not a statement's of the script, and is kept apart from
    the [stdout] and [stderr] of the world, which hold what [print] and the
    interpreter write. *)
Inductive stream : Type := Stdout | Stderr.

Record Chatter : Type := mkChatter {
  on_import : list (stream * string);
  on_load : list (stream * string);
  on_convert : bytes → list (stream * string)
}.

(** The console as a user sees it during some effects: the lines of the
    library and the lines of [print], in the order they are written. *)
Definition console (L : Chatter) (evs : list event) : list (stream * string) :=
  evs ≫= λ e,
    match e with
    | EvImport _ => on_import L
    | EvLoad _ => on_load L
    | EvConvert out => on_convert L out
    | EvPrint line => [(Stdout, line)]
    | EvOpen _ _ | EvWrite _ _ | EvClose _ => []
    end.

(** The lines of one stream among console output. *)
Definition stdout_lines (c : list (stream * string)) : list string :=
  omap (λ sl, match sl with (Stdout, line) => Some line | _ => None end) c.

Definition stderr_lines (c : list (stream * string)) : list string :=
  omap (λ sl, match sl with (Stderr, line) => Some line | _ => None end) c.

(** The effects of a run that went through, for converted bytes [b] and
    descriptor [fd]. *)
Definition full_trace (b : bytes) (fd : nat) : list event :=
  [EvImport "tensorflow"; EvLoad src_path; EvConvert b;
   EvOpen dst_path fd; EvWrite fd b; EvClose fd; EvPrint success_msg].

(** ** A small library and some worlds to run the script in *)

Module Toy.

(** A serialized model is the byte 0x89 followed by a payload, which is the
    model.  The one setting asks for a one-byte summary instead of the
    payload behind a tag; the empty model cannot be converted. *)
Definition tf : TensorFlow := {|
  Model := bytes;
  Settings := bool;
  default_settings := false;
  h5_parse := λ d, match d with x89 :: m => Some m | _ => None end;
  toco_convert := λ q m,
    match m with
    | [] => None
    | _ => Some (if q then [x51] else x54 :: m)
    end
|}.

Definition world (files : gmap string bytes) (denied : gset string)
    (free buf : nat) : World :=
  mkWorld {["tensorflow"]} [] ∅ files denied free buf ∅ [] [] [].

Definition model_file : bytes := [x89; x01; x02; x03].

(** A valid source, nothing at the destination, room on the device. *)
Definition w_fresh : World := world {[src_path := model_file]} ∅ 100 2.

(** As [w_fresh], with an older file at the destination and another
    descriptor in use. *)
Definition w_old : World :=
  set_handles <[0 := OFile "log.txt" []]>
    (world (<[dst_path := [xff; xfe]]> {[src_path := model_file]}) ∅ 50 8).

(** As [w_old], but the destination may not be written. *)
Definition w_readonly : World :=
  world (<[dst_path := [xff; xfe]]> {[src_path := model_file]})
        {[dst_path]} 50 8.

(** No source file. *)
Definition w_nosrc : World := world ∅ ∅ 100 2.

(** Room for three bytes only; [write] has to flush. *)
Definition w_full : World := world {[src_path := model_file]} ∅ 3 2.

(** Room for three bytes only; the bytes fit the buffer and [close] is the
    first to flush. *)
Definition w_full_late : World := world {[src_path := model_file]} ∅ 3 8.

End Toy.

(** The same world, with another buffer size for its file objects. *)
Definition set_buffer_size (n : nat) (w : World) : World :=
  mkWorld (installed w) (argv w) (environ w) (fs w) (wdenied w)
          (disk_free w) n (handles w) (stdout w) (stderr w) (trace w).

(** The same world, with [o] at the destination: a file with these contents,
    or no file. *)
Definition with_destination (o : option bytes) (w : World) : World :=
  set_fs (match o with
          | Some x => <[dst_path := x]>
          | None => delete dst_path
          end) w.

Module Blank.

(** A library that reads any file as a model and converts every model to no
    bytes at all. *)
Definition tf : TensorFlow := {|
  Model := unit;
  Settings := unit;
  default_settings := tt;
  h5_parse := λ _, Some tt;
  toco_convert := λ _ _, Some []
|}.

(** A source file and a device without any room. *)
Definition w_blank : World :=
  mkWorld {["tensorflow"]} [] ∅ {[src_path := [x89]]} ∅ 0 8 ∅ [] [] [].

End Blank.

Module Noisy.

(** A library that reports on standard error when it is imported and when
    it converts, and lists what it saved on standard output. *)
Definition chatter : Chatter := {|
  on_import := [(Stderr, "oneDNN custom operations are on")];
  on_load := [(Stderr, "Compiled the loaded model")];
  on_convert := λ _,
    [(Stdout, "Saved artifact at /tmp/tmpmodel");
     (Stderr, "Ignored output_format")]
|}.

End Noisy.

(** ** Running the statements *)

Lemma run_bind {A B : Type} (m : M A) (k : A → M B) (w : World) :
  (m ≫= k) w =
  match m w with
  | (Ok a, w1) => k a w1
  | (Raise e, w1) => (Raise e, w1)
  end.
Proof. reflexivity. Qed.

Lemma world_eq (w1 w2 : World) :
  installed w1 = installed w2 → argv w1 = argv w2 → environ w1 = environ w2 →
  fs w1 = fs w2 → wdenied w1 = wdenied w2 → disk_free w1 = disk_free w2 →
  buffer_size w1 = buffer_size w2 → handles w1 = handles w2 →
  stdout w1 = stdout w2 → stderr w1 = stderr w2 → trace w1 = trace w2 →
  w1 = w2.
Proof. destruct w1, w2; simpl; intros; congruence. Qed.

(** The descriptor [open] picks is not in use. *)
Lemma fresh_handle (w : World) : handles w !! fresh (dom (handles w)) = None.
Proof. apply not_elem_of_dom, is_fresh. Qed.

Lemma take_take_drop_0 (b : bytes) (n k : nat) :
  k = 0 → take n b ++ take k (drop n b) = take n b.
Proof. intros ->. simpl. apply app_nil_r. Qed.

Lemma import_ok (name : string) (w : World) :
  name ∈ installed w → import_ name w = (Ok tt, log (EvImport name) w).
Proof. intros H. unfold import_. by rewrite decide_True. Qed.

Lemma import_raise (name : string) (w : World) :
  name ∉ installed w → import_ name w = (Raise (ModuleNotFoundError name), w).
Proof. intros H. unfold import_. by rewrite decide_False. Qed.

Lemma open_raise (path : string) (w : World) :
  path ∈ wdenied w → open_ path "wb" w = (Raise (PermissionError path), w).
Proof.
  intros H. unfold open_.
  destruct (decide ("wb" = "wb")) as [_|?]; [|done].
  by rewrite decide_True.
Qed.

(** One field of the world a [with] block ends in. *)
Ltac field :=
  simpl;
  first
    [ done
    | lia
    | rewrite !delete_insert_eq; by apply delete_id
    | unfold fs_append; simpl; rewrite ?lookup_insert_eq; simpl;
      rewrite ?lookup_insert_eq; simpl;
      rewrite !insert_insert_eq; f_equal;
      first [ apply take_take_drop_0; lia
            | rewrite take_take_drop_0 by lia; apply take_take_drop_0; lia ]
    | rewrite <- ?app_assoc; simpl; repeat case_decide; first [done | lia] ].

(** The [with] statement of the script, when [open] is not refused: it ends
    in [saved], and raises exactly when the device has no room for [b]. *)
Lemma with_open_write_run (path : string) (b : bytes) (w : World) :
  path ∉ wdenied w →
  with_ (open_ path "wb") (λ f, write f b) w =
  (if decide (disk_free w < length b)
   then Raise (NoSpaceError path) else Ok (length b),
   saved path b w).
Proof.
  intros Hd.
  pose proof (fresh_handle w) as Hf.
  unfold with_. rewrite run_bind. unfold open_.
  destruct (decide ("wb" = "wb")) as [_|?]; [|done].
  rewrite decide_False by exact Hd.
  unfold saved.
  generalize dependent (fresh (dom (handles w))). intros fd Hf.
  unfold write. simpl. rewrite !lookup_insert_eq. simpl.
  destruct (decide (disk_free w < length b)) as [Hfull|Hroom];
    destruct (decide (buffer_size w < length b)) as [Hbig|Hsmall];
    unfold close, flush, mbind, M_bind, mret, M_ret; simpl;
    rewrite ?lookup_insert_eq; simpl;
    repeat (case_decide; rewrite ?length_drop in *; try lia; simpl;
            rewrite ?lookup_insert_eq; simpl).
  all: f_equal; apply world_eq.
  all: field.
Qed.

(** When [open] is refused the block is not entered and nothing changes. *)
Lemma with_open_denied (path : string) (b : bytes) (w : World) :
  path ∈ wdenied w →
  with_ (open_ path "wb") (λ f, write f b) w = (Raise (PermissionError path), w).
Proof. intros Hd. unfold with_. rewrite run_bind. by rewrite open_raise. Qed.

Section Runs.
Context `{TF : TensorFlow}.

(** Every run of the script is one of the runs of [conv_run]. *)
Lemma conv_py_inv (w w' : World) (r : result unit) :
  conv_py w = (r, w') → conv_run w r w'.
Proof.
  unfold conv_py. rewrite run_bind.
  destruct (decide ("tensorflow" ∈ installed w)) as [Hi|Hi].
  2: { rewrite import_raise by done. intros [= <- <-]. by constructor. }
  rewrite import_ok by done. rewrite run_bind. unfold load_model.
  change (fs (log (EvImport "tensorflow") w)) with (fs w).
  destruct (fs w !! src_path) as [d|] eqn:Hs.
  2: { intros [= <- <-]. by constructor. }
  destruct (h5_parse d) as [m|] eqn:Hp.
  2: { intros [= <- <-]. by econstructor. }
  rewrite run_bind. unfold convert, from_keras_model. simpl.
  destruct (toco_convert default_settings m) as [b|] eqn:Hc.
  2: { intros [= <- <-]. by econstructor. }
  fold (loaded w). rewrite run_bind.
  destruct (decide (dst_path ∈ wdenied w)) as [Hd|Hd].
  { rewrite with_open_denied by done. intros [= <- <-]. by econstructor. }
  rewrite with_open_write_run by done.
  destruct (decide _) as [Hfull|Hroom].
  - intros [= <- <-]. eapply run_no_space; eauto.
  - unfold print. intros [= <- <-]. eapply run_done; eauto.
    simpl in Hroom. lia.
Qed.

(** The script always ends: it has a result and a final world. *)
Lemma conv_py_total (w : World) : conv_run w (conv_py w).1 (conv_py w).2.
Proof. apply conv_py_inv. by destruct (conv_py w). Qed.

End Runs.

(** ** Properties of the script *)

Section Claims.
Context `{TF : TensorFlow}.

Lemma converted_some (d : bytes) (m : Model) (b : bytes) :
  h5_parse d = Some m → toco_convert default_settings m = Some b →
  converted d = Some b.
Proof. unfold converted. intros -> Hc. exact Hc. Qed.

Lemma converted_inv (d b : bytes) :
  converted d = Some b →
  ∃ m, h5_parse d = Some m ∧ toco_convert default_settings m = Some b.
Proof.
  unfold converted. destruct (h5_parse d) as [m|]; [|done].
  intros Hc. by exists m.
Qed.

Lemma take_min (b : bytes) (n : nat) : take (length b `min` n) b = take n b.
Proof.
  destruct (decide (n ≤ length b)).
  - by rewrite Nat.min_r.
  - rewrite Nat.min_l by lia. rewrite !take_ge by lia. done.
Qed.

(** A world has one run. *)
Lemma conv_run_det (w w1 w2 : World) (r1 r2 : result unit) :
  conv_run w r1 w1 → conv_run w r2 w2 → r1 = r2 ∧ w1 = w2.
Proof.
  intros R1 R2.
  inversion R1; inversion R2; subst; simplify_eq; try done; try lia.
Qed.

(** And the script takes it. *)
Lemma conv_run_complete (w w' : World) (r : result unit) :
  conv_run w r w' → conv_py w = (r, w').
Proof.
  intros R. destruct (conv_py w) as [r2 w2] eqn:E.
  apply conv_py_inv in E. by destruct (conv_run_det _ _ _ _ _ R E) as [-> ->].
Qed.

(** Command line and environment are carried along untouched. *)
Lemma conv_run_frame (w w' : World) (r : result unit)
    (a : list string) (env : gmap string string) :
  conv_run w r w' → conv_run (relaunch a env w) r (relaunch a env w').
Proof.
  assert (Hlog : ∀ e w0,
    relaunch a env (log e w0) = log e (relaunch a env w0)) by done.
  assert (Hsaved : ∀ p b w0,
    relaunch a env (saved p b w0) = saved p b (relaunch a env w0)) by done.
  assert (Hnote : ∀ l w0,
    relaunch a env (notified l w0) = notified l (relaunch a env w0)) by done.
  intros R. inversion R; subst r w'; unfold loaded;
    rewrite ?Hnote, ?Hsaved, ?Hlog; fold (loaded (relaunch a env w)).
  - by constructor.
  - by apply run_no_source.
  - by eapply run_bad_source.
  - by eapply run_not_convertible.
  - by eapply run_denied.
  - by eapply run_no_space.
  - by eapply run_done.
Qed.

Ltac norm_trace := simpl; rewrite <- ?app_assoc; simpl.

(** Split the log of the final world into the log of the initial world and
    the effects of the run. *)
Ltac new_events :=
  first [ exists []; split; [by rewrite app_nil_r|]
        | eexists; split; [norm_trace; reflexivity|] ].

(** The same, behind the equation that names the exception and the final
    world. *)
Ltac raised_events :=
  first [ exists []; split; [reflexivity|]; split; [by rewrite app_nil_r|]
        | eexists; split; [reflexivity|]; split; [norm_trace; reflexivity|] ].

(** C1. Control flow is strictly sequential: load, convert, write, notify.
    The steps a run has taken are always an initial part of that sequence,
    so no step starts before the one before it has ended and none is taken
    twice or left out; the run goes through exactly when it has taken all
    four; and then its effects are the fixed sequence [full_trace], the
    bytes converted being those of the source file and the bytes written
    being the bytes converted. *)
Theorem conv_py_sequential (w w' : World) (r : result unit) :
  conv_py w = (r, w') →
  ∃ evs, trace w' = trace w ++ evs
    ∧ steps evs `prefix_of` [SLoad; SConvert; SWrite; SNotify]
    ∧ (r = Ok tt ↔ steps evs = [SLoad; SConvert; SWrite; SNotify])
    ∧ (r = Ok tt →
       ∃ d b fd, fs w !! src_path = Some d ∧ converted d = Some b
                 ∧ evs = full_trace b fd).
Proof.
  intros H. apply conv_py_inv in H.
  inversion H; subst; new_events.
  7: { case_decide; [lia|]. simpl. repeat split; try done.
       intros _. exists d, b, (fresh (dom (handles w))).
       eauto using converted_some. }
  all: try (case_decide; [try lia|]); simpl.
  all: repeat split; try done.
  all: eexists; reflexivity.
Qed.

(** C2. Two runs that go through, started in any two worlds whose source
    files have the same contents, leave the same bytes at the destination:
    the bytes are [converted d], a function of the contents [d] of the source
    file alone.  A run leaves the source file as it was, so this covers
    running the script a second time after the first. *)
Theorem conv_py_deterministic (w1 w2 w1' w2' : World) :
  fs w1 !! src_path = fs w2 !! src_path →
  conv_py w1 = (Ok tt, w1') →
  conv_py w2 = (Ok tt, w2') →
  fs w1' !! dst_path = fs w2' !! dst_path
  ∧ (∃ d b, fs w1 !! src_path = Some d ∧ converted d = Some b
            ∧ fs w1' !! dst_path = Some b)
  ∧ fs w1' !! src_path = fs w1 !! src_path.
Proof.
  intros Hsrc H1 H2. apply conv_py_inv in H1, H2.
  inversion H1; inversion H2; subst. simpl.
  rewrite !Nat.min_l by lia. rewrite !take_ge by lia.
  rewrite !lookup_insert_eq.
  assert (d0 = d) as -> by congruence.
  assert (m0 = m) as -> by congruence.
  assert (b0 = b) as -> by congruence.
  split; [done|]. split.
  - exists d, b. eauto using converted_some.
  - by rewrite lookup_insert_ne.
Qed.

(** C3. If there is no file at the source path, or the file there is not a
    model, the run ends with an exception and has not opened the
    destination: no [open] is among its effects, the file system is what it
    was (so no destination file has been created or touched) and no
    descriptor is in use that was not before.  With TensorFlow installed the
    exception is the one of [load_model]. *)
Theorem source_failure_before_open (w : World) :
  (fs w !! src_path = None
   ∨ ∃ d, fs w !! src_path = Some d ∧ h5_parse d = None) →
  ∃ e w' evs,
    conv_py w = (Raise e, w')
    ∧ trace w' = trace w ++ evs
    ∧ opens evs = []
    ∧ fs w' = fs w
    ∧ handles w' = handles w
    ∧ ("tensorflow" ∈ installed w →
       e = SourceNotFound src_path ∧ fs w !! src_path = None
       ∨ e = SourceInvalid src_path ∧ is_Some (fs w !! src_path)).
Proof.
  intros Hsrc.
  destruct (conv_py w) as [r w'] eqn:E. apply conv_py_inv in E.
  inversion E; subst.
  4-7: destruct Hsrc as [Hno|(d' & Hd' & Hbad)]; congruence.
  all: do 2 eexists; raised_events.
  all: repeat split; try done.
  all: intros ?; first [done | by left | right; by eauto].
Qed.

(** C4. If the destination cannot be opened for writing, the run ends with
    an exception and nothing has been persisted: the file system and the
    room on the device are what they were and no [write] is among the
    effects.  The exception is the one of [open] exactly when the run got
    past conversion, and then the conversion is the last effect; it does get
    that far whenever TensorFlow is installed and the source file converts. *)
Theorem destination_unwritable (w : World) :
  dst_path ∈ wdenied w →
  ∃ e w' evs,
    conv_py w = (Raise e, w')
    ∧ trace w' = trace w ++ evs
    ∧ fs w' = fs w
    ∧ disk_free w' = disk_free w
    ∧ handles w' = handles w
    ∧ writes evs = []
    ∧ (e = PermissionError dst_path ↔
       ∃ b, evs = [EvImport "tensorflow"; EvLoad src_path; EvConvert b])
    ∧ (∀ d b, "tensorflow" ∈ installed w → fs w !! src_path = Some d →
              converted d = Some b →
              e = PermissionError dst_path
              ∧ evs = [EvImport "tensorflow"; EvLoad src_path; EvConvert b]).
Proof.
  intros Hden.
  destruct (conv_py w) as [r w'] eqn:E. apply conv_py_inv in E.
  inversion E; subst; try done.
  all: do 2 eexists; raised_events.
  all: repeat split; try done.
  all: try (intros (? & ?); done).
  all: try (match goal with
            | Hc : converted _ = Some _ |- _ =>
                apply converted_inv in Hc as (? & ? & ?)
            end; simplify_eq; done).
  by eexists.
Qed.

(** C5. A failure is terminal.  When the run ends with an exception [e],
    nothing has been printed, the steps taken stop short of the full
    sequence and none was taken again, and the exception reaches the process
    boundary as it is: the interpreter reports it and exits with status 1.
    Nothing is cleaned up or rolled back: no file has been removed; if the
    exception is not the device's, the file system is what it was; if it is,
    the destination holds the part of the converted bytes the device took,
    not what was there before. *)
Theorem failure_is_terminal (w w' : World) (e : exn) :
  conv_py w = (Raise e, w') →
  ∃ evs, trace w' = trace w ++ evs
    ∧ stdout w' = stdout w
    ∧ prints evs = []
    ∧ (∃ rest, rest ≠ [] ∧ [SLoad; SConvert; SWrite; SNotify] = steps evs ++ rest)
    ∧ python conv_py w = (1, set_stderr (stderr w' ++ [exn_name e]) w')
    ∧ dom (fs w) ⊆ dom (fs w')
    ∧ (e ≠ NoSpaceError dst_path → fs w' = fs w)
    ∧ (e = NoSpaceError dst_path →
       ∃ d b, fs w !! src_path = Some d ∧ converted d = Some b
              ∧ disk_free w < length b
              ∧ fs w' !! dst_path = Some (take (disk_free w) b)).
Proof.
  intros H. unfold python. rewrite H. apply conv_py_inv in H.
  inversion H; subst; new_events.
  6: { repeat split; try done.
       - by case_decide.
       - case_decide; simpl; eexists; (split; [|reflexivity]); done.
       - simpl. rewrite dom_insert_L. set_solver.
       - intros _. exists d, b. repeat split; eauto using converted_some.
         simpl. rewrite lookup_insert_eq. by rewrite take_min. }
  all: repeat split; try done.
  all: eexists; (split; [|reflexivity]); done.
Qed.

(** C6. However the run ends, the descriptors in use afterwards are those in
    use before: the file object of the [with] block has been released, also
    when [write] or the flush of [close] raised.  Every [open] among the
    effects is followed by the [close] of its descriptor, there is at most
    one [write], and on a run that goes through there is exactly one, of all
    the converted bytes, which are then the contents of the destination. *)
Theorem handle_released_single_write (w w' : World) (r : result unit) :
  conv_py w = (r, w') →
  handles w' = handles w
  ∧ ∃ evs, trace w' = trace w ++ evs
    ∧ (∀ p fd, EvOpen p fd ∈ evs →
         ∃ pre post, evs = pre ++ EvOpen p fd :: post ∧ EvClose fd ∈ post)
    ∧ length (writes evs) ≤ 1
    ∧ (r = Ok tt →
       ∃ d b, fs w !! src_path = Some d ∧ converted d = Some b
              ∧ writes evs = [b] ∧ fs w' !! dst_path = Some b).
Proof.
  intros H. apply conv_py_inv in H.
  inversion H; subst; (split; [done|]); new_events.
  6,7: case_decide; try lia.
  all: simpl; repeat split; try done; try lia.
  all: try (intros p fd Hin;
            repeat (apply elem_of_cons in Hin as [Hin|Hin];
                    [ first [ discriminate Hin
                            | injection Hin as -> ->;
                              eexists [_; _; _], _; split; [reflexivity|];
                              rewrite ?elem_of_cons; tauto ] | ]);
            by apply elem_of_nil in Hin).
  intros _. exists d, b. repeat split; eauto using converted_some.
  rewrite Nat.min_l by lia. rewrite take_ge by lia. apply lookup_insert_eq.
Qed.


(** C7. Conversion runs under the settings a fresh converter has and under
    no others: the converter handed to [convert] carries [default_settings],
    whenever a conversion is among the effects its bytes are what
    [toco_convert default_settings] yields for the loaded model, and when the
    run ends in a conversion error that is because [toco_convert
    default_settings] fails.  Command line and environment are not
    consulted: started with any others, the run has the same result and the
    same final world. *)
Theorem default_settings_only (w w' : World) (r : result unit) :
  conv_py w = (r, w') →
  (∀ m, conv_settings (from_keras_model m) = default_settings)
  ∧ (∀ b evs, trace w' = trace w ++ evs → EvConvert b ∈ evs →
       ∃ d m, fs w !! src_path = Some d ∧ h5_parse d = Some m
              ∧ toco_convert default_settings m = Some b)
  ∧ (r = Raise ConverterError →
       ∃ d m, fs w !! src_path = Some d ∧ h5_parse d = Some m
              ∧ toco_convert default_settings m = None)
  ∧ (∀ a env, conv_py (relaunch a env w) = (r, relaunch a env w')).
Proof.
  intros H. apply conv_py_inv in H.
  split; [done|]. split; [|split].
  - intros b' evs Htr Hin.
    assert (∃ evs0, trace w' = trace w ++ evs0
              ∧ (EvConvert b' ∈ evs0 →
                 ∃ d m, fs w !! src_path = Some d ∧ h5_parse d = Some m
                        ∧ toco_convert default_settings m = Some b'))
      as (evs0 & E0 & Hconv).
    { inversion H; subst; new_events; try case_decide; simpl; intros Hin0.
      all: repeat (apply elem_of_cons in Hin0 as [Hin0|Hin0];
                   [ first [ discriminate Hin0
                           | injection Hin0 as ->; eauto ] | ]).
      all: by apply elem_of_nil in Hin0. }
    rewrite E0 in Htr. apply app_inv_head in Htr as <-. auto.
  - intros ->. inversion H; subst. eauto.
  - intros a env. by apply conv_run_complete, conv_run_frame.
Qed.

(** C8, amended.  On a run that goes through, the script itself prints
    exactly one line, the success message: its one [print] adds that line to
    standard output, no statement of the script writes to standard error,
    and the process exits with status 0 without a report.  On the console
    the message is the last line; whatever stands before it was written by
    the library while it was imported, loaded the model and converted it. *)
Theorem success_prints_one_line (L : Chatter) (w w' : World) :
  conv_py w = (Ok tt, w') →
  stdout w' = stdout w ++ [success_msg]
  ∧ stderr w' = stderr w
  ∧ (∃ evs b, trace w' = trace w ++ evs
       ∧ prints evs = [success_msg]
       ∧ console L evs
         = on_import L ++ on_load L ++ on_convert L b
           ++ [(Stdout, success_msg)])
  ∧ python conv_py w = (0, w').
Proof.
  intros H. unfold python. rewrite H. apply conv_py_inv in H.
  inversion H; subst. repeat split; try done.
  eexists _, b. split; [norm_trace; reflexivity|].
  case_decide; [lia|]. split; [done|].
  unfold console. simpl. done.
Qed.

(** C9, amended.  A file that exists at the destination before the run
    loses its contents once conversion has succeeded and [open] is not
    refused: whatever the contents were, the destination is opened and
    afterwards holds converted bytes only, as many as the device took, which
    is all of them when the run goes through.  When [open] is refused the
    run ends with its exception and the file keeps its contents. *)
Theorem existing_destination_replaced (w w' : World) (r : result unit)
    (old d b : bytes) :
  fs w !! dst_path = Some old →
  "tensorflow" ∈ installed w →
  fs w !! src_path = Some d →
  converted d = Some b →
  conv_py w = (r, w') →
  (dst_path ∉ wdenied w →
     (∃ evs, trace w' = trace w ++ evs ∧ opens evs = [dst_path])
     ∧ fs w' !! dst_path = Some (take (disk_free w) b)
     ∧ (r = Ok tt → fs w' !! dst_path = Some b))
  ∧ (dst_path ∈ wdenied w →
     r = Raise (PermissionError dst_path) ∧ fs w' !! dst_path = Some old).
Proof.
  intros Hold Hi Hs Hc H. apply conv_py_inv in H.
  apply converted_inv in Hc as (m & Hp & Hc).
  inversion H; subst; simplify_eq; (split; [intros Hw|intros Hd; try done]).
  all: try done.
  - split; [new_events; by case_decide|].
    simpl. rewrite lookup_insert_eq, take_min. done.
  - split; [new_events; by case_decide|].
    simpl. rewrite lookup_insert_eq, take_min.
    split; [done|]. intros _. by rewrite take_ge by lia.
Qed.

(** C10. When something has been printed, the run has gone through and the
    [with] block was left before: [print] ran in a world [w0] in which the
    descriptor of the destination was no longer in use and the destination
    held all the converted bytes, and in the log the [close] of that
    descriptor comes right before the [print]. *)
Theorem notified_after_close (w w' : World) (r : result unit) :
  conv_py w = (r, w') →
  stdout w' ≠ stdout w →
  r = Ok tt
  ∧ ∃ d b fd w0,
      fs w !! src_path = Some d ∧ converted d = Some b
      ∧ print success_msg w0 = (Ok tt, w')
      ∧ trace w0 = trace w ++ [EvImport "tensorflow"; EvLoad src_path;
                               EvConvert b; EvOpen dst_path fd;
                               EvWrite fd b; EvClose fd]
      ∧ handles w0 !! fd = None
      ∧ fs w0 !! dst_path = Some b
      ∧ trace w' = trace w0 ++ [EvPrint success_msg]
      ∧ handles w' = handles w0
      ∧ fs w' = fs w0.
Proof.
  intros H Hout. apply conv_py_inv in H.
  inversion H; subst; simpl in Hout; try done.
  split; [done|].
  exists d, b, (fresh (dom (handles w))),
    (saved dst_path b (log (EvConvert b) (loaded w))).
  split; [done|]. split; [eauto using converted_some|].
  split; [reflexivity|].
  split; [norm_trace; by case_decide; try lia|].
  split; [simpl; apply fresh_handle|].
  split; [|done].
  simpl. rewrite Nat.min_l by lia. rewrite take_ge by lia.
  apply lookup_insert_eq.
Qed.

End Claims.

(** ** The properties at work, in the worlds of [Toy] *)

Example run_fresh_trace :
  trace (conv_py (TF := Toy.tf) Toy.w_fresh).2
  = full_trace [x54; x01; x02; x03] 0.
Proof. vm_compute. reflexivity. Qed.

Example run_full_partial :
  (conv_py (TF := Toy.tf) Toy.w_full).1 = Raise (NoSpaceError dst_path)
  ∧ fs (conv_py (TF := Toy.tf) Toy.w_full).2 !! dst_path
    = Some [x54; x01; x02]
  ∧ opens (trace (conv_py (TF := Toy.tf) Toy.w_full).2) = [dst_path]
  ∧ writes (trace (conv_py (TF := Toy.tf) Toy.w_full).2) = [].
Proof. repeat split; vm_compute; reflexivity. Qed.

Example run_full_late :
  (conv_py (TF := Toy.tf) Toy.w_full_late).1 = Raise (NoSpaceError dst_path)
  ∧ fs (conv_py (TF := Toy.tf) Toy.w_full_late).2 !! dst_path
    = Some [x54; x01; x02]
  ∧ writes (trace (conv_py (TF := Toy.tf) Toy.w_full_late).2)
    = [[x54; x01; x02; x03]]
  ∧ handles (conv_py (TF := Toy.tf) Toy.w_full_late).2 = ∅.
Proof. repeat split; vm_compute; reflexivity. Qed.

Lemma toy_installed (w : World) :
  installed w = {["tensorflow"]} → "tensorflow" ∈ installed w.
Proof. intros ->. by apply elem_of_singleton. Qed.

Lemma conv_py_sequential_witness :
  conv_py (TF := Toy.tf) Toy.w_fresh
    = (Ok tt, (conv_py (TF := Toy.tf) Toy.w_fresh).2)
  ∧ ∃ evs, trace (conv_py (TF := Toy.tf) Toy.w_fresh).2
             = trace Toy.w_fresh ++ evs
           ∧ steps evs = [SLoad; SConvert; SWrite; SNotify].
Proof.
  assert (H : conv_py (TF := Toy.tf) Toy.w_fresh
              = (Ok tt, (conv_py (TF := Toy.tf) Toy.w_fresh).2))
    by (vm_compute; reflexivity).
  split; [exact H|].
  destruct (conv_py_sequential _ _ _ H) as (evs & Htr & _ & Hiff & _).
  exists evs. split; [exact Htr|]. by apply Hiff.
Defined.

Lemma conv_py_deterministic_witness :
  fs Toy.w_old !! src_path
    = fs (conv_py (TF := Toy.tf) Toy.w_fresh).2 !! src_path
  ∧ fs Toy.w_old !! dst_path
    ≠ fs (conv_py (TF := Toy.tf) Toy.w_fresh).2 !! dst_path
  ∧ fs (conv_py (TF := Toy.tf) Toy.w_old).2 !! dst_path
    = fs (conv_py (TF := Toy.tf) (conv_py (TF := Toy.tf) Toy.w_fresh).2).2
        !! dst_path.
Proof.
  assert (Hs : fs Toy.w_old !! src_path
               = fs (conv_py (TF := Toy.tf) Toy.w_fresh).2 !! src_path)
    by (vm_compute; reflexivity).
  split; [exact Hs|]. split; [vm_compute; discriminate|].
  apply (conv_py_deterministic (TF := Toy.tf)
           Toy.w_old (conv_py (TF := Toy.tf) Toy.w_fresh).2 _ _ Hs).
  - vm_compute; reflexivity.
  - vm_compute; reflexivity.
Defined.

Lemma source_failure_before_open_witness :
  fs Toy.w_nosrc !! src_path = None
  ∧ ∃ e w' evs,
      conv_py (TF := Toy.tf) Toy.w_nosrc = (Raise e, w')
      ∧ trace w' = trace Toy.w_nosrc ++ evs
      ∧ opens evs = []
      ∧ fs w' = fs Toy.w_nosrc.
Proof.
  assert (H : fs Toy.w_nosrc !! src_path = None) by (vm_compute; reflexivity).
  split; [exact H|].
  destruct (source_failure_before_open (TF := Toy.tf) Toy.w_nosrc (or_introl H))
    as (e & w' & evs & Hrun & Htr & Hop & Hfs & _).
  by exists e, w', evs.
Defined.

Lemma destination_unwritable_witness :
  dst_path ∈ wdenied Toy.w_readonly
  ∧ ∃ e w' evs,
      conv_py (TF := Toy.tf) Toy.w_readonly = (Raise e, w')
      ∧ trace w' = trace Toy.w_readonly ++ evs
      ∧ fs w' = fs Toy.w_readonly
      ∧ writes evs = [].
Proof.
  assert (H : dst_path ∈ wdenied Toy.w_readonly)
    by exact (proj2 (elem_of_singleton (C := gset string) dst_path dst_path) eq_refl).
  split; [exact H|].
  destruct (destination_unwritable (TF := Toy.tf) Toy.w_readonly H)
    as (e & w' & evs & Hrun & Htr & Hfs & _ & _ & Hwr & _).
  by exists e, w', evs.
Defined.

Lemma failure_is_terminal_witness :
  conv_py (TF := Toy.tf) Toy.w_full
    = (Raise (NoSpaceError dst_path), (conv_py (TF := Toy.tf) Toy.w_full).2)
  ∧ stdout (conv_py (TF := Toy.tf) Toy.w_full).2 = stdout Toy.w_full
  ∧ (python (conv_py (TF := Toy.tf)) Toy.w_full).1 = 1
  ∧ ∃ d b, fs Toy.w_full !! src_path = Some d
           ∧ converted (TF := Toy.tf) d = Some b
           ∧ disk_free Toy.w_full < length b
           ∧ fs (conv_py (TF := Toy.tf) Toy.w_full).2 !! dst_path
             = Some (take (disk_free Toy.w_full) b).
Proof.
  assert (H : conv_py (TF := Toy.tf) Toy.w_full
              = (Raise (NoSpaceError dst_path),
                 (conv_py (TF := Toy.tf) Toy.w_full).2))
    by (vm_compute; reflexivity).
  split; [exact H|].
  destruct (failure_is_terminal _ _ _ H)
    as (evs & _ & Hout & _ & _ & Hpy & _ & _ & Hpart).
  split; [exact Hout|]. split; [by rewrite Hpy|]. by apply Hpart.
Defined.

Lemma handle_released_single_write_witness :
  conv_py (TF := Toy.tf) Toy.w_full
    = (Raise (NoSpaceError dst_path), (conv_py (TF := Toy.tf) Toy.w_full).2)
  ∧ handles (conv_py (TF := Toy.tf) Toy.w_full).2 = handles Toy.w_full.
Proof.
  assert (H : conv_py (TF := Toy.tf) Toy.w_full
              = (Raise (NoSpaceError dst_path),
                 (conv_py (TF := Toy.tf) Toy.w_full).2))
    by (vm_compute; reflexivity).
  split; [exact H|].
  exact (proj1 (handle_released_single_write _ _ _ H)).
Defined.

Lemma default_settings_only_witness :
  conv_py (TF := Toy.tf) Toy.w_fresh
    = (Ok tt, (conv_py (TF := Toy.tf) Toy.w_fresh).2)
  ∧ conv_py (TF := Toy.tf)
      (relaunch ["conv.py"; "--quantize"] {["TFLITE_QUANTIZE" := "1"]} Toy.w_fresh)
    = (Ok tt,
       relaunch ["conv.py"; "--quantize"] {["TFLITE_QUANTIZE" := "1"]}
         (conv_py (TF := Toy.tf) Toy.w_fresh).2).
Proof.
  assert (H : conv_py (TF := Toy.tf) Toy.w_fresh
              = (Ok tt, (conv_py (TF := Toy.tf) Toy.w_fresh).2))
    by (vm_compute; reflexivity).
  split; [exact H|].
  apply (default_settings_only _ _ _ H).
Defined.

Lemma success_prints_one_line_witness :
  conv_py (TF := Toy.tf) Toy.w_old
    = (Ok tt, (conv_py (TF := Toy.tf) Toy.w_old).2)
  ∧ stdout (conv_py (TF := Toy.tf) Toy.w_old).2 = [success_msg]
  ∧ stderr (conv_py (TF := Toy.tf) Toy.w_old).2 = []
  ∧ ∃ evs b, trace (conv_py (TF := Toy.tf) Toy.w_old).2
               = trace Toy.w_old ++ evs
             ∧ prints evs = [success_msg]
             ∧ console Noisy.chatter evs
               = on_import Noisy.chatter ++ on_load Noisy.chatter
                 ++ on_convert Noisy.chatter b ++ [(Stdout, success_msg)].
Proof.
  assert (H : conv_py (TF := Toy.tf) Toy.w_old
              = (Ok tt, (conv_py (TF := Toy.tf) Toy.w_old).2))
    by (vm_compute; reflexivity).
  split; [exact H|].
  destruct (success_prints_one_line Noisy.chatter _ _ H)
    as (Hout & Herr & Hcon & _).
  split; [exact Hout|]. split; [exact Herr | exact Hcon].
Defined.

(** C8, as stated, fails for a library that writes to the console, as
    TensorFlow does.  The run from [Toy.w_fresh] goes through, and the
    console then shows five lines: on standard output the listing of the
    converter before the success message, on standard error three lines of
    the library.  So the success message is not the only line on standard
    output, and there is other console output on the success path. *)
Lemma library_output_on_console :
  (conv_py (TF := Toy.tf) Toy.w_fresh).1 = Ok tt
  ∧ trace Toy.w_fresh = []
  ∧ console Noisy.chatter (trace (conv_py (TF := Toy.tf) Toy.w_fresh).2)
    = [(Stderr, "oneDNN custom operations are on");
       (Stderr, "Compiled the loaded model");
       (Stdout, "Saved artifact at /tmp/tmpmodel");
       (Stderr, "Ignored output_format");
       (Stdout, success_msg)]
  ∧ stdout_lines
      (console Noisy.chatter (trace (conv_py (TF := Toy.tf) Toy.w_fresh).2))
    ≠ [success_msg]
  ∧ stderr_lines
      (console Noisy.chatter (trace (conv_py (TF := Toy.tf) Toy.w_fresh).2))
    ≠ [].
Proof.
  split; [vm_compute; reflexivity|].
  split; [reflexivity|].
  split; [vm_compute; reflexivity|].
  split; vm_compute; discriminate.
Qed.

(** C9, as stated, fails in [Toy.w_readonly].  What the claim supposes
    holds there: a file exists at the destination, and the source loads and
    converts, conversion being the last effect of the run.  What it
    concludes does not: [open] is refused, and after the run the file still
    has its old contents; it has not been truncated and does not hold the
    converted bytes. *)
Lemma readonly_destination_kept :
  (fs Toy.w_readonly !! dst_path = Some [xff; xfe]
   ∧ "tensorflow" ∈ installed Toy.w_readonly
   ∧ fs Toy.w_readonly !! src_path = Some Toy.model_file
   ∧ converted (TF := Toy.tf) Toy.model_file = Some [x54; x01; x02; x03]
   ∧ ∃ evs, trace (conv_py (TF := Toy.tf) Toy.w_readonly).2
              = trace Toy.w_readonly ++ evs
            ∧ last evs = Some (EvConvert [x54; x01; x02; x03]))
  ∧ (conv_py (TF := Toy.tf) Toy.w_readonly).1 = Raise (PermissionError dst_path)
  ∧ fs (conv_py (TF := Toy.tf) Toy.w_readonly).2 !! dst_path = Some [xff; xfe]
  ∧ fs (conv_py (TF := Toy.tf) Toy.w_readonly).2 !! dst_path ≠ Some []
  ∧ fs (conv_py (TF := Toy.tf) Toy.w_readonly).2 !! dst_path
    ≠ Some [x54; x01; x02; x03].
Proof.
  split.
  - split; [vm_compute; reflexivity|].
    split; [by apply toy_installed|].
    split; [vm_compute; reflexivity|].
    split; [vm_compute; reflexivity|].
    exists [EvImport "tensorflow"; EvLoad src_path;
            EvConvert [x54; x01; x02; x03]].
    split; vm_compute; reflexivity.
  - split; [vm_compute; reflexivity|].
    split; [vm_compute; reflexivity|].
    split; vm_compute; discriminate.
Qed.

Lemma existing_destination_replaced_witness :
  fs Toy.w_old !! dst_path = Some [xff; xfe]
  ∧ "tensorflow" ∈ installed Toy.w_old
  ∧ fs Toy.w_old !! src_path = Some Toy.model_file
  ∧ converted (TF := Toy.tf) Toy.model_file = Some [x54; x01; x02; x03]
  ∧ conv_py (TF := Toy.tf) Toy.w_old
    = (Ok tt, (conv_py (TF := Toy.tf) Toy.w_old).2)
  ∧ fs (conv_py (TF := Toy.tf) Toy.w_old).2 !! dst_path
    = Some [x54; x01; x02; x03].
Proof.
  assert (Hold : fs Toy.w_old !! dst_path = Some [xff; xfe])
    by (vm_compute; reflexivity).
  assert (Hi : "tensorflow" ∈ installed Toy.w_old) by (by apply toy_installed).
  assert (Hs : fs Toy.w_old !! src_path = Some Toy.model_file)
    by (vm_compute; reflexivity).
  assert (Hc : converted (TF := Toy.tf) Toy.model_file
               = Some [x54; x01; x02; x03]) by reflexivity.
  assert (H : conv_py (TF := Toy.tf) Toy.w_old
              = (Ok tt, (conv_py (TF := Toy.tf) Toy.w_old).2))
    by (vm_compute; reflexivity).
  repeat (split; [assumption|]).
  destruct (existing_destination_replaced _ _ _ _ _ _ Hold Hi Hs Hc H)
    as [Hopen _].
  apply Hopen; [|reflexivity].
  intros Hin. by apply elem_of_empty in Hin.
Defined.

Lemma notified_after_close_witness :
  conv_py (TF := Toy.tf) Toy.w_old
    = (Ok tt, (conv_py (TF := Toy.tf) Toy.w_old).2)
  ∧ stdout (conv_py (TF := Toy.tf) Toy.w_old).2 ≠ stdout Toy.w_old
  ∧ ∃ b fd w0,
      print success_msg w0 = (Ok tt, (conv_py (TF := Toy.tf) Toy.w_old).2)
      ∧ handles w0 !! fd = None
      ∧ fs w0 !! dst_path = Some b
      ∧ last (trace w0) = Some (EvClose fd).
Proof.
  assert (H : conv_py (TF := Toy.tf) Toy.w_old
              = (Ok tt, (conv_py (TF := Toy.tf) Toy.w_old).2))
    by (vm_compute; reflexivity).
  assert (Hout : stdout (conv_py (TF := Toy.tf) Toy.w_old).2 ≠ stdout Toy.w_old)
    by (vm_compute; discriminate).
  split; [exact H|]. split; [exact Hout|].
  destruct (notified_after_close _ _ _ H Hout)
    as (_ & d & b & fd & w0 & _ & _ & Hpr & Htr & Hfd & Hfs & _).
  exists b, fd, w0. repeat (split; [assumption|]).
  rewrite Htr. reflexivity.
Defined.

(** ** Further properties of the script *)

Section Extras.
Context `{TF : TensorFlow}.

(** X3. Which exception ends a failed run is decided by the first statement
    that fails, whatever is wrong further down: a missing library before the
    source, the source before conversion, conversion before the destination,
    a refused [open] before a full device. *)
Theorem failure_taxonomy (w w' : World) (e : exn) :
  conv_py w = (Raise e, w') →
  ("tensorflow" ∉ installed w → e = ModuleNotFoundError "tensorflow")
  ∧ ("tensorflow" ∈ installed w →
     (fs w !! src_path = None → e = SourceNotFound src_path)
     ∧ (∀ d, fs w !! src_path = Some d →
          (h5_parse d = None → e = SourceInvalid src_path)
          ∧ (∀ m, h5_parse d = Some m →
               (toco_convert default_settings m = None → e = ConverterError)
               ∧ (∀ b, toco_convert default_settings m = Some b →
                    (dst_path ∈ wdenied w → e = PermissionError dst_path)
                    ∧ (dst_path ∉ wdenied w →
                       e = NoSpaceError dst_path
                       ∧ disk_free w < length b))))).
Proof.
  intros H. apply conv_py_inv in H.
  inversion H; subst; repeat (first [split | intro]); simplify_eq;
    first [done | lia].
Qed.

(** X4. Running the script again after a run that went through changes
    nothing on disk: when the second run goes through as well, the file
    system is what the first run left, the descriptors in use are those in
    use before the first run, and standard output holds the message twice. *)
Theorem rerun_idempotent (w w1 w2 : World) :
  conv_py w = (Ok tt, w1) →
  conv_py w1 = (Ok tt, w2) →
  fs w2 = fs w1
  ∧ handles w2 = handles w
  ∧ stdout w2 = stdout w ++ [success_msg; success_msg].
Proof.
  intros H1 H2. apply conv_py_inv in H1, H2.
  inversion H1; subst. inversion H2; subst.
  match goal with
  | Hs : fs _ !! src_path = Some ?d2 |- _ =>
      simpl in Hs; rewrite lookup_insert_ne in Hs by done
  end.
  simplify_eq. simpl.
  repeat split; try done.
  - rewrite !Nat.min_l by (simpl in *; lia). by rewrite insert_insert_eq.
  - by rewrite <- app_assoc.
Qed.

(** X5. The script does not look at what conversion returned.  If the
    converter yields no bytes, the run still goes through: it creates or
    empties the destination, which then exists with length zero, takes no
    room on the device and prints the success message. *)
Theorem empty_output_accepted (w : World) (d : bytes) :
  "tensorflow" ∈ installed w →
  fs w !! src_path = Some d →
  converted d = Some [] →
  dst_path ∉ wdenied w →
  ∃ w', conv_py w = (Ok tt, w')
        ∧ fs w' !! dst_path = Some []
        ∧ disk_free w' = disk_free w
        ∧ stdout w' = stdout w ++ [success_msg].
Proof.
  intros Hi Hs Hc Hd. apply converted_inv in Hc as (m & Hp & Hc).
  eexists. split.
  - apply conv_run_complete. eapply run_done; eauto. simpl. lia.
  - simpl. rewrite lookup_insert_eq. repeat split; try done. lia.
Qed.

(** X6. How much the file object buffers makes no difference to the outcome:
    with any other buffer size the run ends the same way, with the same file
    system, the same room left on the device, the same descriptors in use
    and the same output.  (Only the log can differ: whether a [write] that
    meets a full device fails itself or leaves that to [close].) *)
Theorem buffer_size_irrelevant (w w' : World) (r : result unit) (n : nat) :
  conv_py w = (r, w') →
  ∃ w2, conv_py (set_buffer_size n w) = (r, w2)
        ∧ fs w2 = fs w'
        ∧ disk_free w2 = disk_free w'
        ∧ handles w2 = handles w'
        ∧ stdout w2 = stdout w'
        ∧ opens (trace w2) = opens (trace w')
        ∧ prints (trace w2) = prints (trace w').
Proof.
  intros H. apply conv_py_inv in H.
  inversion H; subst; eexists; (split; [apply conv_run_complete|]).
  1: by apply run_no_module.
  2: by apply run_no_source.
  3: by eapply run_bad_source.
  4: by eapply run_not_convertible.
  5: by eapply run_denied.
  6: by eapply run_no_space.
  7: by eapply run_done.
  all: simpl; repeat split; try done.
  all: unfold opens, prints; rewrite !omap_app; simpl;
    repeat case_decide; simpl; done.
Qed.

(** X7. What is at the destination before the run has no influence on a run
    that goes through: started with any other file at the destination, or
    with none, the run goes through as well and leaves the same file system,
    the same descriptors in use, the same output and the same log. *)
Theorem old_destination_forgotten (w w' : World) (o : option bytes) :
  conv_py w = (Ok tt, w') →
  ∃ w2, conv_py (with_destination o w) = (Ok tt, w2)
        ∧ fs w2 = fs w'
        ∧ handles w2 = handles w'
        ∧ stdout w2 = stdout w'
        ∧ trace w2 = trace w'.
Proof.
  intros H. apply conv_py_inv in H.
  assert (Hsrc : fs (with_destination o w) !! src_path = fs w !! src_path).
  { unfold with_destination. destruct o; simpl.
    - by rewrite lookup_insert_ne.
    - by rewrite lookup_delete_ne. }
  assert (Hfs : ∀ x, <[dst_path := x]> (fs (with_destination o w))
                     = <[dst_path := x]> (fs w)).
  { intros x. unfold with_destination. destruct o; simpl.
    - apply insert_insert_eq.
    - apply insert_delete_eq. }
  inversion H; subst. eexists. split.
  - apply conv_run_complete. eapply run_done; eauto. by rewrite Hsrc.
  - simpl. split; [exact (Hfs _)|done].
Qed.

End Extras.

(** ** The further properties at work *)

Lemma failure_taxonomy_witness :
  conv_py (TF := Toy.tf) (Toy.world ∅ {[dst_path]} 0 2)
    = (Raise (SourceNotFound src_path),
       (conv_py (TF := Toy.tf) (Toy.world ∅ {[dst_path]} 0 2)).2)
  ∧ dst_path ∈ wdenied (Toy.world ∅ {[dst_path]} 0 2)
  ∧ ("tensorflow" ∉ installed (Toy.world ∅ {[dst_path]} 0 2) →
     SourceNotFound src_path = ModuleNotFoundError "tensorflow").
Proof.
  assert (H : conv_py (TF := Toy.tf) (Toy.world ∅ {[dst_path]} 0 2)
              = (Raise (SourceNotFound src_path),
                 (conv_py (TF := Toy.tf) (Toy.world ∅ {[dst_path]} 0 2)).2))
    by (vm_compute; reflexivity).
  split; [exact H|].
  split; [exact (proj2 (elem_of_singleton (C := gset string)
                          dst_path dst_path) eq_refl)|].
  exact (proj1 (failure_taxonomy _ _ _ H)).
Defined.

Lemma rerun_idempotent_witness :
  conv_py (TF := Toy.tf) Toy.w_fresh
    = (Ok tt, (conv_py (TF := Toy.tf) Toy.w_fresh).2)
  ∧ conv_py (TF := Toy.tf) (conv_py (TF := Toy.tf) Toy.w_fresh).2
    = (Ok tt,
       (conv_py (TF := Toy.tf) (conv_py (TF := Toy.tf) Toy.w_fresh).2).2)
  ∧ fs (conv_py (TF := Toy.tf) (conv_py (TF := Toy.tf) Toy.w_fresh).2).2
    = fs (conv_py (TF := Toy.tf) Toy.w_fresh).2
  ∧ stdout (conv_py (TF := Toy.tf) (conv_py (TF := Toy.tf) Toy.w_fresh).2).2
    = [success_msg; success_msg].
Proof.
  assert (H1 : conv_py (TF := Toy.tf) Toy.w_fresh
               = (Ok tt, (conv_py (TF := Toy.tf) Toy.w_fresh).2))
    by (vm_compute; reflexivity).
  assert (H2 : conv_py (TF := Toy.tf) (conv_py (TF := Toy.tf) Toy.w_fresh).2
               = (Ok tt,
                  (conv_py (TF := Toy.tf)
                     (conv_py (TF := Toy.tf) Toy.w_fresh).2).2))
    by (vm_compute; reflexivity).
  split; [exact H1|]. split; [exact H2|].
  destruct (rerun_idempotent _ _ _ H1 H2) as (Hfs & _ & Hout).
  split; [exact Hfs | exact Hout].
Defined.

Lemma empty_output_accepted_witness :
  ("tensorflow" ∈ installed Blank.w_blank
   ∧ fs Blank.w_blank !! src_path = Some [x89]
   ∧ converted (TF := Blank.tf) [x89] = Some []
   ∧ dst_path ∉ wdenied Blank.w_blank)
  ∧ ∃ w', conv_py (TF := Blank.tf) Blank.w_blank = (Ok tt, w')
          ∧ fs w' !! dst_path = Some []
          ∧ disk_free w' = disk_free Blank.w_blank
          ∧ stdout w' = stdout Blank.w_blank ++ [success_msg].
Proof.
  assert (Hi : "tensorflow" ∈ installed Blank.w_blank)
    by (by apply toy_installed).
  assert (Hs : fs Blank.w_blank !! src_path = Some [x89])
    by (vm_compute; reflexivity).
  assert (Hc : converted (TF := Blank.tf) [x89] = Some []) by reflexivity.
  assert (Hd : dst_path ∉ wdenied Blank.w_blank)
    by (intros Hin; by apply elem_of_empty in Hin).
  split; [by repeat split|].
  exact (empty_output_accepted (TF := Blank.tf) Blank.w_blank [x89] Hi Hs Hc Hd).
Defined.

Lemma buffer_size_irrelevant_witness :
  conv_py (TF := Toy.tf) Toy.w_full
    = (Raise (NoSpaceError dst_path), (conv_py (TF := Toy.tf) Toy.w_full).2)
  ∧ writes (trace (conv_py (TF := Toy.tf) Toy.w_full).2)
    ≠ writes (trace (conv_py (TF := Toy.tf) (set_buffer_size 8 Toy.w_full)).2)
  ∧ ∃ w2, conv_py (TF := Toy.tf) (set_buffer_size 8 Toy.w_full)
            = (Raise (NoSpaceError dst_path), w2)
          ∧ fs w2 = fs (conv_py (TF := Toy.tf) Toy.w_full).2.
Proof.
  assert (H : conv_py (TF := Toy.tf) Toy.w_full
              = (Raise (NoSpaceError dst_path),
                 (conv_py (TF := Toy.tf) Toy.w_full).2))
    by (vm_compute; reflexivity).
  split; [exact H|]. split; [vm_compute; discriminate|].
  destruct (buffer_size_irrelevant _ _ _ 8 H) as (w2 & Hrun & Hfs & _).
  by exists w2.
Defined.

Lemma old_destination_forgotten_witness :
  conv_py (TF := Toy.tf) Toy.w_old
    = (Ok tt, (conv_py (TF := Toy.tf) Toy.w_old).2)
  ∧ fs (with_destination None Toy.w_old) !! dst_path = None
  ∧ ∃ w2, conv_py (TF := Toy.tf) (with_destination None Toy.w_old)
            = (Ok tt, w2)
          ∧ fs w2 = fs (conv_py (TF := Toy.tf) Toy.w_old).2.
Proof.
  assert (H : conv_py (TF := Toy.tf) Toy.w_old
              = (Ok tt, (conv_py (TF := Toy.tf) Toy.w_old).2))
    by (vm_compute; reflexivity).
  split; [exact H|]. split; [vm_compute; reflexivity|].
  destruct (old_destination_forgotten _ _ None H) as (w2 & Hrun & Hfs & _).
  by exists w2.
Defined.
